(** * LectureController and the response helpers of doc-reader-faculty-server

    A shallow embedding of [LectureController] (seven request handlers) and of
    [utlis/responses.ts].  The handlers are straight-line code over external
    collaborators (authentication, parameter parsing, schema validation and the
    Prisma data store); the collaborators are gathered in the record [Env], the
    handlers are written once over any [Env], and an in-memory instance
    ([Mem.env]) lets every statement be evaluated on concrete requests. *)

From stdpp Require Import base option list gmap strings pretty.

Open Scope Z_scope.
Open Scope string_scope.

(** ** JavaScript values *)

(** The primitives that reach the controller: ids, year ids and route
    parameters.  [undefined] is what [x?.f] yields when [x] is nullish. *)
Inductive value :=
  | undefined
  | null
  | num (n : Z)
  | str (s : string).

#[global] Instance value_eq_dec : EqDecision value.
Proof. solve_decision. Defined.

(** [a !== b] on primitives. *)
Definition strict_neq (a b : value) : bool := negb (bool_decide (a = b)).

(** [!v] is [negb (truthy v)]. *)
Definition truthy (v : value) : bool :=
  match v with
  | undefined | null => false
  | num n => negb (Z.eqb n 0)
  | str s => negb (String.eqb s "")
  end.

(** String conversion used by template literals.  For a number this is the
    decimal notation, which is what JavaScript prints for integers below
    10^21 in magnitude. *)
Definition toString (v : value) : string :=
  match v with
  | undefined => "undefined"
  | null => "null"
  | num n => pretty n
  | str s => s
  end.

#[warnings="-register-all"]
Inductive json :=
  | JNull
  | JNumber (n : Z)
  | JString (s : string)
  | JArray (items : list json)
  | JObject (fields : list (string * json)).

Definition json_of_value (v : value) : json :=
  match v with
  | undefined | null => JNull
  | num n => JNumber n
  | str s => JString s
  end.

(** Own keys of an object literal, in insertion order. *)
Definition keys (j : json) : list string :=
  match j with
  | JObject fields => fst <$> fields
  | _ => []
  end.

Fixpoint assoc (k : string) (fields : list (string * json)) : option json :=
  match fields with
  | [] => None
  | (k', v) :: rest => if String.eqb k k' then Some v else assoc k rest
  end.

Definition field (k : string) (j : json) : option json :=
  match j with
  | JObject fields => assoc k fields
  | _ => None
  end.

(** [{...o, k: v}]: a later key replaces an earlier one in place. *)
Fixpoint assign (k : string) (v : json) (fields : list (string * json))
  : list (string * json) :=
  match fields with
  | [] => [(k, v)]
  | (k', v') :: rest =>
      if String.eqb k k' then (k, v) :: rest else (k', v') :: assign k v rest
  end.

(** ** utlis/responses.ts *)

(** What [res.status(code).json(body)] sends. *)
Record Response := { statusCode : Z; body : json }.

Module responses.

(** Each helper takes [res] first; the remaining parameters have defaults,
    so an omitted argument is [None]. *)
Definition send (message : option string) (status : option Z) : Response :=
  let message := default "" message in
  let status := default 200 status in
  {| statusCode := status;
     body := JObject [("message", JString message); ("status", JNumber status)] |}.

Definition unauthorized (message : option string) : Response :=
  let message := default "Unauthorized." message in
  {| statusCode := 401;
     body := JObject [("message", JString message); ("status", JNumber 401)] |}.

Definition notFound (message : option string) : Response :=
  let message := default "Error 404 - Not Found." message in
  {| statusCode := 404;
     body := JObject [("message", JString message); ("status", JNumber 404)] |}.

Definition badRequest (message : option string) : Response :=
  let message := default "Something went wrong." message in
  {| statusCode := 500;
     body := JObject [("message", JString message); ("status", JNumber 500)] |}.

Definition conflict (message : option string) : Response :=
  let message := default "Something went wrong." message in
  {| statusCode := 409;
     body := JObject [("message", JString message); ("status", JNumber 409)] |}.

End responses.

(** ** Entities, as far as the controller inspects them *)

(** Modelled from the spec: the [UserRole] enum of the generated Prisma client
    is not part of the sources; the spec gives a user the role Admin or
    Student. *)
Inductive UserRole := Admin | Student.

#[global] Instance UserRole_eq_dec : EqDecision UserRole.
Proof. solve_decision. Defined.

Record User := { user_role : UserRole; user_yearId : value }.
Record Subject := { subject_moduleId : value }.
Record LectureData := { lecture_id : value; lecture_subject : Subject }.
Record ModuleData := { module_yearId : value }.
Record LectureLink := { link_id : value }.

(** [user?.yearId] and [module?.yearId]. *)
Definition user_yearId_opt (user : option User) : value :=
  from_option user_yearId undefined user.

Definition module_yearId_opt (module : option ModuleData) : value :=
  from_option module_yearId undefined module.

(** ** Results of calls that may throw *)

Inductive outcome (A : Type) :=
  | Ok (a : A)
  | Throw (errorObject : json).
Arguments Ok {A} a.
Arguments Throw {A} errorObject.

(** Return value of a zod [safeParse]. *)
Inductive SafeParseReturn :=
  | ParseSuccess (data : list (string * json))
  | ParseFailure (error : json).

(** Calls a handler issues to the data store, with their arguments. *)
Inductive Call :=
  | lectureData_findUnique_call (id : value)
  | module_findUnique_call (id : value)
  | lectureLinks_findUnique_call (id : value)
  | lectureLinks_findMany_call (lectureId : value)
  | lectureData_update_call (id : value) (data : list (string * json))
  | lectureData_delete_call (id : value)
  | lectureLinks_create_call (data : list (string * json))
  | lectureLinks_update_call (id : value) (data : list (string * json))
  | lectureLinks_delete_call (id : value).

Definition is_write (c : Call) : bool :=
  match c with
  | lectureData_findUnique_call _ | module_findUnique_call _
  | lectureLinks_findUnique_call _ | lectureLinks_findMany_call _ => false
  | _ => true
  end.

(** ** The collaborators of the controller *)

(** The controller imports [AuthController.user], the helpers
    [parameterExists], [extractErrors] and [currentDate], the zod schemas
    [subjectLecture] and [linkSchema], the Prisma client [db] and the response
    helper [validationErrors]; none of their definitions is among the sources,
    so each is a field of [Env].  Lookups read the store, mutations return the
    next store, and every call except [safeParse] (which reports failure in
    its result) may throw. *)
Record Env (Request Store : Type) := {
  AuthController_user : Request -> Store -> outcome (option User);
  parameterExists : Request -> string -> outcome value;
  req_body : Request -> json;
  subjectLecture_update_safeParse : json -> SafeParseReturn;
  linkSchema_create_safeParse : json -> SafeParseReturn;
  linkSchema_update_safeParse : json -> SafeParseReturn;
  extractErrors : SafeParseReturn -> outcome json;
  currentDate : outcome json;
  validationErrors : json -> Response;
  lectureData_findUnique : value -> Store -> outcome (option LectureData);
  module_findUnique : value -> Store -> outcome (option ModuleData);
  lectureLinks_findUnique : value -> Store -> outcome (option LectureLink);
  lectureLinks_findMany : value -> Store -> outcome (list LectureLink);
  lectureData_update :
    value -> list (string * json) -> Store -> outcome json * Store;
  lectureData_delete : value -> Store -> outcome json * Store;
  lectureLinks_create : list (string * json) -> Store -> outcome json * Store;
  lectureLinks_update :
    value -> list (string * json) -> Store -> outcome json * Store;
  lectureLinks_delete : value -> Store -> outcome json * Store
}.

Arguments AuthController_user {Request Store} _ _ _.
Arguments parameterExists {Request Store} _ _ _.
Arguments req_body {Request Store} _ _.
Arguments subjectLecture_update_safeParse {Request Store} _ _.
Arguments linkSchema_create_safeParse {Request Store} _ _.
Arguments linkSchema_update_safeParse {Request Store} _ _.
Arguments extractErrors {Request Store} _ _.
Arguments currentDate {Request Store} _.
Arguments validationErrors {Request Store} _ _.
Arguments lectureData_findUnique {Request Store} _ _ _.
Arguments module_findUnique {Request Store} _ _ _.
Arguments lectureLinks_findUnique {Request Store} _ _ _.
Arguments lectureLinks_findMany {Request Store} _ _ _.
Arguments lectureData_update {Request Store} _ _ _ _.
Arguments lectureData_delete {Request Store} _ _ _.
Arguments lectureLinks_create {Request Store} _ _ _.
Arguments lectureLinks_update {Request Store} _ _ _ _.
Arguments lectureLinks_delete {Request Store} _ _ _.

(** ** What a handler returns *)

(** The fourth argument the handlers hand to [send]. *)
Inductive Payload :=
  | lecture_payload (lecture : LectureData)
  | links_payload (links : list LectureLink)
  | row_payload (row : json).

(** Every [return] of a handler is the call of one response helper on [res];
    [Reply] records which helper is called and with which arguments, and
    [respond] runs it. *)
Inductive Reply :=
  | Send (message : string) (status : Z) (data : Payload)
  | Unauthorized (message : string)
  | NotFound (message : string)
  | BadRequest (message : string)
  | ValidationErrors (errors : json)
  | Caught (errorObject : json).

(** The body of every [catch] block. *)
Definition caught (errorObject : json) : Response :=
  {| statusCode := 500;
     body := JObject [("errorObject", errorObject);
                      ("message", JString "Error - Something Went Wrong.");
                      ("status", JNumber 500)] |}.

Section Controller.

Context {Request Store : Type} (E : Env Request Store).

(** [send] declares three parameters; the surplus fourth argument of the
    call sites is dropped by the call. *)
Definition respond (r : Reply) : Response :=
  match r with
  | Send message status _ => responses.send (Some message) (Some status)
  | Unauthorized message => responses.unauthorized (Some message)
  | NotFound message => responses.notFound (Some message)
  | BadRequest message => responses.badRequest (Some message)
  | ValidationErrors errors => validationErrors E errors
  | Caught errorObject => caught errorObject
  end.

(** *** Handler computations

    A computation runs on the store and the log of data-store calls issued
    so far, and either returns or throws. *)
Definition M (A : Type) : Type :=
  Store * list Call -> outcome A * (Store * list Call).

Definition ret {A} (a : A) : M A := fun w => (Ok a, w).

Definition bind {A B} (c : M A) (k : A -> M B) : M B :=
  fun w =>
    match c w with
    | (Ok a, w') => k a w'
    | (Throw e, w') => (Throw e, w')
    end.

(** A helper call that does not touch the store. *)
Definition call {A} (r : outcome A) : M A := fun w => (r, w).

(** [await AuthController.user(req, res)]. *)
Definition auth (req : Request) : M (option User) :=
  fun w => (AuthController_user E req (fst w), w).

(** [await db.<model>.find...]: logged, store untouched. *)
Definition db_read {A} (c : Call) (f : Store -> outcome A) : M A :=
  fun w => (f (fst w), (fst w, (snd w ++ [c])%list)).

(** [await db.<model>.{create,update,delete}]: logged, store replaced. *)
Definition db_write {A} (c : Call) (f : Store -> outcome A * Store) : M A :=
  fun w => let '(r, s') := f (fst w) in (r, (s', (snd w ++ [c])%list)).

(** [try { body } catch (errorObject) { return handler(errorObject) }]. *)
Definition try_catch {A} (body : M A) (handler : json -> A) : M A :=
  fun w =>
    match body w with
    | (Ok a, w') => (Ok a, w')
    | (Throw e, w') => (Ok (handler e), w')
    end.

End Controller.

Arguments M Store A : clear implicits.
Arguments ret {Store A} a.
Arguments bind {Store A B} c k.
Arguments call {Store A} r.
Arguments try_catch {Store A} body handler.

Notation "'let*' x ':=' c 'in' k" := (bind c (fun x => k))
  (at level 10, x name, c at level 100, k at level 200).

(** ** LectureController *)

(** The handlers by name. *)

Inductive Handler :=
  | h_get | h_updateLecture | h_deleteLecture | h_getLinks
  | h_createLink | h_updateLink | h_deleteLink.

(** The mutating operations; [get] and [getLinks] only read. *)
Definition mutating (h : Handler) : bool :=
  match h with
  | h_get | h_getLinks => false
  | _ => true
  end.

(** The handlers that also resolve a link ([linkId]). *)
Definition takes_link (h : Handler) : bool :=
  match h with
  | h_updateLink | h_deleteLink => true
  | _ => false
  end.

(** The message of the role check of each mutating handler. *)
Definition role_message (h : Handler) : string :=
  match h with
  | h_updateLecture => "Unauthorized cannot update a lecture."
  | h_deleteLecture => "Unauthorized cannot delete a lecture."
  | h_createLink => "Unauthorized cannot create a link."
  | h_updateLink => "Unauthorized cannot update a link."
  | h_deleteLink => "Unauthorized cannot delete a link."
  | h_get | h_getLinks => ""
  end.

Section LectureController.

Context {Request Store : Type} (E : Env Request Store).

(** [!user || user.role !== UserRole.Admin]. *)
Definition not_admin (user : option User) : bool :=
  match user with
  | None => true
  | Some user => negb (bool_decide (user_role user = Admin))
  end.

Definition get_try (req : Request) : M Store Reply :=
  let* user := auth E req in
  let* lectureId := call (parameterExists E req "lectureId") in
  if negb (truthy lectureId) then ret (BadRequest "Invalid lectureId") else
  let* lecture := db_read (lectureData_findUnique_call lectureId)
                          (lectureData_findUnique E lectureId) in
  match lecture with
  | None => ret (NotFound "Lecture doesn't exist.")
  | Some lecture =>
      let moduleId := subject_moduleId (lecture_subject lecture) in
      let* module := db_read (module_findUnique_call moduleId)
                             (module_findUnique E moduleId) in
      if strict_neq (user_yearId_opt user) (module_yearId_opt module)
      then ret (Unauthorized "Unauthorized") else
      ret (Send ("lectureId [" +:+ toString lectureId +:+ "] - Data") 200
                (lecture_payload lecture))
  end.

Definition get (req : Request) : M Store Reply :=
  try_catch (get_try req) Caught.

Definition updateLecture_try (req : Request) : M Store Reply :=
  let* user := auth E req in
  if not_admin user
  then ret (Unauthorized "Unauthorized cannot update a lecture.") else
  let* lectureId := call (parameterExists E req "lectureId") in
  if negb (truthy lectureId) then ret (BadRequest "Invalid lectureId") else
  let* lecture := db_read (lectureData_findUnique_call lectureId)
                          (lectureData_findUnique E lectureId) in
  match lecture with
  | None => ret (NotFound "Lecture doesn't exist.")
  | Some lecture =>
      let moduleId := subject_moduleId (lecture_subject lecture) in
      let* module := db_read (module_findUnique_call moduleId)
                             (module_findUnique E moduleId) in
      if strict_neq (user_yearId_opt user) (module_yearId_opt module)
      then ret (Unauthorized "Unauthorized") else
      let body := subjectLecture_update_safeParse E (req_body E req) in
      match body with
      | ParseFailure _ =>
          let* errors := call (extractErrors E body) in
          ret (ValidationErrors errors)
      | ParseSuccess data =>
          let* updatedLecture :=
            db_write (lectureData_update_call lectureId data)
                     (lectureData_update E lectureId data) in
          ret (Send "Lecture has been updated" 200 (row_payload updatedLecture))
      end
  end.

Definition updateLecture (req : Request) : M Store Reply :=
  try_catch (updateLecture_try req) Caught.

Definition deleteLecture_try (req : Request) : M Store Reply :=
  let* user := auth E req in
  if not_admin user
  then ret (Unauthorized "Unauthorized cannot delete a lecture.") else
  let* lectureId := call (parameterExists E req "lectureId") in
  if negb (truthy lectureId) then ret (BadRequest "Invalid lectureId") else
  let* lecture := db_read (lectureData_findUnique_call lectureId)
                          (lectureData_findUnique E lectureId) in
  match lecture with
  | None => ret (NotFound "Lecture doesn't exist.")
  | Some lecture =>
      let moduleId := subject_moduleId (lecture_subject lecture) in
      let* module := db_read (module_findUnique_call moduleId)
                             (module_findUnique E moduleId) in
      if strict_neq (user_yearId_opt user) (module_yearId_opt module)
      then ret (Unauthorized "Unauthorized") else
      let* deletedLecture :=
        db_write (lectureData_delete_call lectureId)
                 (lectureData_delete E lectureId) in
      ret (Send "Lecture has been deleted" 200 (row_payload deletedLecture))
  end.

Definition deleteLecture (req : Request) : M Store Reply :=
  try_catch (deleteLecture_try req) Caught.

Definition getLinks_try (req : Request) : M Store Reply :=
  let* user := auth E req in
  let* lectureId := call (parameterExists E req "lectureId") in
  if negb (truthy lectureId) then ret (BadRequest "Invalid lectureId") else
  let* lecture := db_read (lectureData_findUnique_call lectureId)
                          (lectureData_findUnique E lectureId) in
  match lecture with
  | None => ret (NotFound "Lecture doesn't exist.")
  | Some lecture =>
      let moduleId := subject_moduleId (lecture_subject lecture) in
      let* module := db_read (module_findUnique_call moduleId)
                             (module_findUnique E moduleId) in
      if strict_neq (user_yearId_opt user) (module_yearId_opt module)
      then ret (Unauthorized "Unauthorized") else
      let* links := db_read (lectureLinks_findMany_call (lecture_id lecture))
                            (lectureLinks_findMany E (lecture_id lecture)) in
      ret (Send ("lectureId [" +:+ toString lectureId +:+ "] - Links") 200
                (links_payload links))
  end.

Definition getLinks (req : Request) : M Store Reply :=
  try_catch (getLinks_try req) Caught.

Definition createLink_try (req : Request) : M Store Reply :=
  let* user := auth E req in
  if not_admin user
  then ret (Unauthorized "Unauthorized cannot create a link.") else
  let* lectureId := call (parameterExists E req "lectureId") in
  if negb (truthy lectureId) then ret (BadRequest "Invalid lectureId") else
  let* lecture := db_read (lectureData_findUnique_call lectureId)
                          (lectureData_findUnique E lectureId) in
  match lecture with
  | None => ret (NotFound "Lecture doesn't exist.")
  | Some lecture =>
      let moduleId := subject_moduleId (lecture_subject lecture) in
      let* module := db_read (module_findUnique_call moduleId)
                             (module_findUnique E moduleId) in
      if strict_neq (user_yearId_opt user) (module_yearId_opt module)
      then ret (Unauthorized "Unauthorized") else
      let body := linkSchema_create_safeParse E (req_body E req) in
      match body with
      | ParseFailure _ =>
          let* errors := call (extractErrors E body) in
          ret (ValidationErrors errors)
      | ParseSuccess data =>
          let* createdAt := call (currentDate E) in
          let data :=
            assign "createdAt" createdAt
              (assign "lectureId" (json_of_value (lecture_id lecture)) data) in
          let* createdLink :=
            db_write (lectureLinks_create_call data)
                     (lectureLinks_create E data) in
          ret (Send "Lecture Link has been created" 201
                    (row_payload createdLink))
      end
  end.

Definition createLink (req : Request) : M Store Reply :=
  try_catch (createLink_try req) Caught.

Definition updateLink_try (req : Request) : M Store Reply :=
  let* user := auth E req in
  if not_admin user
  then ret (Unauthorized "Unauthorized cannot update a link.") else
  let* lectureId := call (parameterExists E req "lectureId") in
  let* linkId := call (parameterExists E req "linkId") in
  if negb (truthy lectureId) then ret (BadRequest "Invalid lectureId") else
  if negb (truthy linkId) then ret (BadRequest "Invalid linkId") else
  let* lecture := db_read (lectureData_findUnique_call lectureId)
                          (lectureData_findUnique E lectureId) in
  let* link := db_read (lectureLinks_findUnique_call linkId)
                       (lectureLinks_findUnique E linkId) in
  match lecture, link with
  | None, _ => ret (NotFound "Lecture doesn't exist.")
  | Some _, None => ret (NotFound "Link doesn't exist.")
  | Some lecture, Some link =>
      let moduleId := subject_moduleId (lecture_subject lecture) in
      let* module := db_read (module_findUnique_call moduleId)
                             (module_findUnique E moduleId) in
      if strict_neq (user_yearId_opt user) (module_yearId_opt module)
      then ret (Unauthorized "Unauthorized") else
      let body := linkSchema_update_safeParse E (req_body E req) in
      match body with
      | ParseFailure _ =>
          let* errors := call (extractErrors E body) in
          ret (ValidationErrors errors)
      | ParseSuccess data =>
          let* createdLink :=
            db_write (lectureLinks_update_call (link_id link) data)
                     (lectureLinks_update E (link_id link) data) in
          ret (Send "Link has been updated" 200 (row_payload createdLink))
      end
  end.

Definition updateLink (req : Request) : M Store Reply :=
  try_catch (updateLink_try req) Caught.

Definition deleteLink_try (req : Request) : M Store Reply :=
  let* user := auth E req in
  if not_admin user
  then ret (Unauthorized "Unauthorized cannot delete a link.") else
  let* lectureId := call (parameterExists E req "lectureId") in
  let* linkId := call (parameterExists E req "linkId") in
  if negb (truthy lectureId) then ret (BadRequest "Invalid lectureId") else
  if negb (truthy linkId) then ret (BadRequest "Invalid linkId") else
  let* lecture := db_read (lectureData_findUnique_call lectureId)
                          (lectureData_findUnique E lectureId) in
  let* link := db_read (lectureLinks_findUnique_call linkId)
                       (lectureLinks_findUnique E linkId) in
  match lecture, link with
  | None, _ => ret (NotFound "Lecture doesn't exist.")
  | Some _, None => ret (NotFound "Link doesn't exist.")
  | Some lecture, Some link =>
      let moduleId := subject_moduleId (lecture_subject lecture) in
      let* module := db_read (module_findUnique_call moduleId)
                             (module_findUnique E moduleId) in
      if strict_neq (user_yearId_opt user) (module_yearId_opt module)
      then ret (Unauthorized "Unauthorized") else
      let* deletedLink :=
        db_write (lectureLinks_delete_call (link_id link))
                 (lectureLinks_delete E (link_id link)) in
      ret (Send "Link has been deleted" 200 (row_payload deletedLink))
  end.

Definition deleteLink (req : Request) : M Store Reply :=
  try_catch (deleteLink_try req) Caught.

(** *** Dispatch by name *)

Definition handler_try (h : Handler) : Request -> M Store Reply :=
  match h with
  | h_get => get_try
  | h_updateLecture => updateLecture_try
  | h_deleteLecture => deleteLecture_try
  | h_getLinks => getLinks_try
  | h_createLink => createLink_try
  | h_updateLink => updateLink_try
  | h_deleteLink => deleteLink_try
  end.

Definition handler (h : Handler) : Request -> M Store Reply :=
  match h with
  | h_get => get
  | h_updateLecture => updateLecture
  | h_deleteLecture => deleteLecture
  | h_getLinks => getLinks
  | h_createLink => createLink
  | h_updateLink => updateLink
  | h_deleteLink => deleteLink
  end.

End LectureController.


(** ** An in-memory instance of the collaborators

    A small stand-in for the session, the route parameters, the schemas and
    the Prisma client, so that the handlers can be evaluated on concrete
    requests.  Nothing below is part of the controller. *)

Module Mem.

Record Store := {
  lectures : gmap Z LectureData;
  lecture_columns : gmap Z (list (string * json));
  modules : gmap Z ModuleData;
  (** rows of the links table, each with the id of its lecture *)
  links : list (Z * LectureLink);
  next_link_id : Z;
  (** [false]: every query is rejected *)
  available : bool
}.

Record Request := {
  session : option User;
  params : gmap string value;
  payload : json
}.

Definition unavailable : json := JString "Can't reach database server".
Definition missing_record : json := JString "Record not found".

Definition query {A} (s : Store) (r : outcome A) : outcome A :=
  if available s then r else Throw unavailable.

Definition find_link (id : value) (s : Store) : option LectureLink :=
  snd <$> List.find (fun row => bool_decide (link_id (snd row) = id)) (links s).

Definition lookup_id {A} (id : value) (table : gmap Z A) : option A :=
  match id with
  | num n => table !! n
  | _ => None
  end.

(** A schema that accepts any JSON object. *)
Definition safeParse (input : json) : SafeParseReturn :=
  match input with
  | JObject fields => ParseSuccess fields
  | _ => ParseFailure (JString "Expected object")
  end.

Definition update_lecture (id : value) (data : list (string * json))
    (s : Store) : outcome json * Store :=
  match id, lookup_id id (lectures s) with
  | num n, Some _ =>
      (query s (Ok (JObject (assign "id" (JNumber n) data))),
       if available s
       then {| lectures := lectures s;
               lecture_columns := <[n := data]> (lecture_columns s);
               modules := modules s; links := links s;
               next_link_id := next_link_id s; available := true |}
       else s)
  | _, _ => (query s (Throw missing_record), s)
  end.

Definition delete_lecture (id : value) (s : Store) : outcome json * Store :=
  match id, lookup_id id (lectures s) with
  | num n, Some _ =>
      (query s (Ok (JObject [("id", JNumber n)])),
       if available s
       then {| lectures := delete n (lectures s);
               lecture_columns := delete n (lecture_columns s);
               modules := modules s; links := links s;
               next_link_id := next_link_id s; available := true |}
       else s)
  | _, _ => (query s (Throw missing_record), s)
  end.

Definition create_link (data : list (string * json)) (s : Store)
  : outcome json * Store :=
  match assoc "lectureId" data with
  | Some (JNumber n) =>
      (query s (Ok (JObject (assign "id" (JNumber (next_link_id s)) data))),
       if available s
       then {| lectures := lectures s; lecture_columns := lecture_columns s;
               modules := modules s;
               links := (links s ++ [(n, {| link_id := num (next_link_id s) |})])%list;
               next_link_id := next_link_id s + 1; available := true |}
       else s)
  | _ => (query s (Throw (JString "Argument lectureId is missing")), s)
  end.

Definition update_link (id : value) (data : list (string * json)) (s : Store)
  : outcome json * Store :=
  match find_link id s with
  | Some _ => (query s (Ok (JObject (assign "id" (json_of_value id) data))), s)
  | None => (query s (Throw missing_record), s)
  end.

Definition delete_link (id : value) (s : Store) : outcome json * Store :=
  match find_link id s with
  | Some _ =>
      (query s (Ok (JObject [("id", json_of_value id)])),
       if available s
       then {| lectures := lectures s; lecture_columns := lecture_columns s;
               modules := modules s;
               links := List.filter
                          (fun row => negb (bool_decide (link_id (snd row) = id)))
                          (links s);
               next_link_id := next_link_id s; available := true |}
       else s)
  | None => (query s (Throw missing_record), s)
  end.

Definition env : Env Request Store := {|
  AuthController_user := fun req s => query s (Ok (session req));
  parameterExists := fun req name => Ok (default undefined (params req !! name));
  req_body := payload;
  subjectLecture_update_safeParse := safeParse;
  linkSchema_create_safeParse := safeParse;
  linkSchema_update_safeParse := safeParse;
  extractErrors := fun r =>
    Ok (match r with ParseFailure e => JArray [e] | ParseSuccess _ => JArray [] end);
  currentDate := Ok (JString "2024-01-01T00:00:00.000Z");
  validationErrors := fun errors =>
    {| statusCode := 400;
       body := JObject [("errors", errors); ("status", JNumber 400)] |};
  lectureData_findUnique := fun id s => query s (Ok (lookup_id id (lectures s)));
  module_findUnique := fun id s => query s (Ok (lookup_id id (modules s)));
  lectureLinks_findUnique := fun id s => query s (Ok (find_link id s));
  lectureLinks_findMany := fun id s =>
    query s (Ok (snd <$> List.filter
                   (fun row => bool_decide (num (fst row) = id)) (links s)));
  lectureData_update := update_lecture;
  lectureData_delete := delete_lecture;
  lectureLinks_create := create_link;
  lectureLinks_update := update_link;
  lectureLinks_delete := delete_link
|}.

(** *** Sample data *)

Definition lecture5 : LectureData :=
  {| lecture_id := num 5; lecture_subject := {| subject_moduleId := num 9 |} |}.

Definition lecture6 : LectureData :=
  {| lecture_id := num 6; lecture_subject := {| subject_moduleId := num 10 |} |}.

Definition link3 : LectureLink := {| link_id := num 3 |}.

(** Lecture 5 belongs to module 9 (year 2); lecture 6 names module 10, which
    has no row. *)
Definition store : Store :=
  {| lectures := <[5 := lecture5]> (<[6 := lecture6]> ∅);
     lecture_columns := ∅;
     modules := <[9 := {| module_yearId := num 2 |}]> ∅;
     links := [(5, link3)];
     next_link_id := 4;
     available := true |}.

Definition down : Store :=
  {| lectures := lectures store; lecture_columns := ∅;
     modules := modules store; links := links store;
     next_link_id := 4; available := false |}.

Definition admin2 : User := {| user_role := Admin; user_yearId := num 2 |}.
Definition student1 : User := {| user_role := Student; user_yearId := num 1 |}.
Definition student2 : User := {| user_role := Student; user_yearId := num 2 |}.

Definition request (user : option User) (lectureId linkId : value)
    (input : json) : Request :=
  {| session := user;
     params := <["lectureId" := lectureId]> (<["linkId" := linkId]> ∅);
     payload := input |}.

Definition title : json := JObject [("title", JString "Anatomy 1")].

(** The lookups of a handler that reads lecture 6. *)
Definition reads_of_lecture6 : list Call :=
  [lectureData_findUnique_call (num 6); module_findUnique_call (num 10)].

End Mem.

(** ** Vocabulary of the statements *)

(** The replies that refuse a request: unauthorized, not found, bad request
    and validation errors. *)
Definition rejection (r : Reply) : bool :=
  match r with
  | Unauthorized _ | NotFound _ | BadRequest _ | ValidationErrors _ => true
  | Send _ _ _ | Caught _ => false
  end.

Definition is_read (c : Call) : bool := negb (is_write c).

(** The run of handler [h] gets as far as the module lookup: the caller is
    resolved to [user] (and passes the role check of a mutating handler), the
    route parameters are present, and the lecture (and the link, where the
    handler takes one) is found. *)
Definition reaches_module_lookup {Request Store : Type} (E : Env Request Store)
    (h : Handler) (req : Request) (s : Store)
    (user : option User) (lectureId : value) (lecture : LectureData) : Prop :=
  AuthController_user E req s = Ok user /\
  (mutating h = true -> not_admin user = false) /\
  parameterExists E req "lectureId" = Ok lectureId /\
  truthy lectureId = true /\
  lectureData_findUnique E lectureId s = Ok (Some lecture) /\
  (takes_link h = true ->
   exists linkId link,
     parameterExists E req "linkId" = Ok linkId /\
     truthy linkId = true /\
     lectureLinks_findUnique E linkId s = Ok (Some link)).

(** What a read handler hands to [send]: the lecture for [get], the links for
    [getLinks]. *)
Definition read_payload (h : Handler) (lecture : LectureData)
    (links : list LectureLink) : Payload :=
  match h with
  | h_getLinks => links_payload links
  | _ => lecture_payload lecture
  end.

(** The JSON envelope [{message, status}] whose [status] field repeats the
    HTTP status code. *)
Definition envelope (r : Response) : Prop :=
  exists message,
    body r = JObject [("message", JString message);
                      ("status", JNumber (statusCode r))].

(** ** http/models/Faculty.js *)

(** A default parameter value replaces an omitted or [undefined] argument,
    and nothing else ([null] is passed on). *)
Definition or_default (d v : value) : value :=
  match v with
  | undefined => d
  | _ => v
  end.

(** A Prisma [select] object: the columns and their flags. *)
Definition Selectors := list (string * bool).

(** The argument of [db.faculty.findMany]; [skip] and [take] are [None] when
    the object has no such key. *)
Record FindManyArgs := {
  where_OR_name_contains : list value;
  findMany_select : Selectors;
  findMany_orderBy : string * value;
  findMany_skip : option value;
  findMany_take : option value
}.

(** The argument of [db.faculty.findUnique]. *)
Record FindUniqueArgs := { where_id : value; findUnique_select : Selectors }.

(** The [faculty] model of the Prisma client, which is not among the
    sources. *)
Record FacultyDb (Store : Type) := {
  faculty_findMany : FindManyArgs -> Store -> outcome (list json);
  faculty_findUnique : FindUniqueArgs -> Store -> outcome (option json)
}.

Arguments faculty_findMany {Store} _ _ _.
Arguments faculty_findUnique {Store} _ _ _.

Module Faculty.

Definition dbSelectors : Selectors :=
  [("id", true); ("name", true); ("city", true);
   ("createdAt", true); ("updatedAt", true)].

Section Model.

Context {Store : Type} (db : FacultyDb Store).

Definition findAll (search orderBy orderType : value) (s : Store)
  : outcome (list json) :=
  let search := or_default (str "") search in
  let orderBy := or_default (str "id") orderBy in
  let orderType := or_default (str "desc") orderType in
  match
    faculty_findMany db
      {| where_OR_name_contains := [search];
         findMany_select := dbSelectors;
         findMany_orderBy := (toString orderBy, orderType);
         findMany_skip := None;
         findMany_take := None |} s
  with
  | Ok rows => Ok rows
  | Throw _ => Ok []
  end.

(** [select] is [None] for [null] and for an omitted argument; any object is
    truthy. *)
Definition find (id : value) (select : option Selectors) (s : Store)
  : outcome (option json) :=
  faculty_findUnique db
    {| where_id := id;
       findUnique_select :=
         match select with Some select => select | None => dbSelectors end |} s.

Definition paginate (search skip take orderBy orderType : value) (s : Store)
  : outcome (list json) :=
  let search := or_default (str "") search in
  let skip := or_default (num 0) skip in
  let take := or_default (num 10) take in
  let orderBy := or_default (str "id") orderBy in
  let orderType := or_default (str "desc") orderType in
  match
    faculty_findMany db
      {| where_OR_name_contains := [search];
         findMany_select := dbSelectors;
         findMany_orderBy := (toString orderBy, orderType);
         findMany_skip := Some skip;
         findMany_take := Some take |} s
  with
  | Ok rows => Ok rows
  | Throw _ => Ok []
  end.

End Model.

End Faculty.

(** ** More sample data *)

Module Samples.

Definition link8 : LectureLink := {| link_id := num 8 |}.

(** [Mem.store] with a second link, 8, which belongs to lecture 6. *)
Definition two_links : Mem.Store :=
  {| Mem.lectures := Mem.lectures Mem.store;
     Mem.lecture_columns := ∅;
     Mem.modules := Mem.modules Mem.store;
     Mem.links := [(5, Mem.link3); (6, link8)];
     Mem.next_link_id := 9;
     Mem.available := true |}.

(** A faculty table that answers every query with all its rows, or rejects
    every query. *)
Definition faculty_table (rows : option (list json)) : FacultyDb unit :=
  {| faculty_findMany := fun _ _ =>
       match rows with
       | Some rows => Ok rows
       | None => Throw Mem.unavailable
       end;
     faculty_findUnique := fun _ _ =>
       match rows with
       | Some rows => Ok (head rows)
       | None => Throw Mem.unavailable
       end |}.

End Samples.

(** ** Vocabulary of the statements, continued *)

(** The calls a run added to the log it started from. *)
Definition issued (log log' : list Call) : list Call :=
  drop (length log) log'.

(** The lecture named by the request is found and the year comparison of the
    handlers lets [user] through: [user?.yearId] equals [module?.yearId]. *)
Definition year_matched {Request Store : Type} (E : Env Request Store)
    (req : Request) (s : Store) (user : option User) : Prop :=
  exists lectureId lecture module,
    parameterExists E req "lectureId" = Ok lectureId /\
    truthy lectureId = true /\
    lectureData_findUnique E lectureId s = Ok (Some lecture) /\
    module_findUnique E (subject_moduleId (lecture_subject lecture)) s
    = Ok module /\
    user_yearId_opt user = module_yearId_opt module.

(** The caller is an Admin whose year matches the lecture's module. *)
Definition passed_checks {Request Store : Type} (E : Env Request Store)
    (req : Request) (s : Store) : Prop :=
  exists u,
    AuthController_user E req s = Ok (Some u) /\
    user_role u = Admin /\
    year_matched E req s (Some u).

(** The schema a handler validates the body with, if it validates it. *)
Definition schema_of {Request Store : Type} (E : Env Request Store)
    (h : Handler) : option (json -> SafeParseReturn) :=
  match h with
  | h_updateLecture => Some (subjectLecture_update_safeParse E)
  | h_createLink => Some (linkSchema_create_safeParse E)
  | h_updateLink => Some (linkSchema_update_safeParse E)
  | _ => None
  end.

Definition is_module_lookup (c : Call) : bool :=
  match c with
  | module_findUnique_call _ => true
  | _ => false
  end.

(** ** Properties *)

Ltac unfold_handlers :=
  unfold handler, handler_try,
    get, updateLecture, deleteLecture, getLinks,
    createLink, updateLink, deleteLink,
    get_try, updateLecture_try, deleteLecture_try, getLinks_try,
    createLink_try, updateLink_try, deleteLink_try,
    try_catch, bind, auth, call, db_read, db_write, ret in *.

(** Rewrite with the known results of the collaborator calls, as the run
    reaches them. *)
Ltac feed :=
  repeat (cbn [fst snd negb];
          match goal with
          | H : ?l = _ |- context [?l] => rewrite H
          end).

Ltac close_log :=
  first
    [ exists []; split; [ by rewrite app_nil_r | done ]
    | eexists; split; [ by rewrite <- ?app_assoc | done ] ].

Section Properties.

Context {Request Store : Type} (E : Env Request Store).

(** C10. A mutating handler that answers with a rejection (unauthorized, not
    found, bad request or validation errors) has issued no create, update or
    delete call: the calls it added to the log are lookups only, and the store
    it leaves is the store it found. *)
Theorem rejection_leaves_store_unchanged
    (h : Handler) (req : Request) (s s' : Store) (log log' : list Call)
    (r : Reply) :
  mutating h = true ->
  handler E h req (s, log) = (Ok r, (s', log')) ->
  rejection r = true ->
  s' = s /\
  exists reads, log' = (log ++ reads)%list /\ forallb is_read reads = true.
Proof.
  intros Hmut Hrun Hrej.
  destruct h; try discriminate Hmut; unfold_handlers; simpl in *;
    repeat case_match; simplify_eq; simpl in *; try discriminate;
    (split; [ reflexivity | close_log ]).
Qed.

(** C7. No handler lets an exception out: a run always returns a reply, and
    when the body of the [try] throws, the reply is the one of the [catch]
    block, with status 500 and a message. *)
Theorem exceptions_become_500 (h : Handler) (req : Request)
    (w : Store * list Call) :
  (exists r w', handler E h req w = (Ok r, w')) /\
  match handler_try E h req w with
  | (Ok r, w') => handler E h req w = (Ok r, w')
  | (Throw errorObject, w') =>
      handler E h req w = (Ok (Caught errorObject), w') /\
      statusCode (respond E (Caught errorObject)) = 500 /\
      field "status" (body (respond E (Caught errorObject))) = Some (JNumber 500) /\
      field "message" (body (respond E (Caught errorObject)))
      = Some (JString "Error - Something Went Wrong.")
  end.
Proof.
  assert (Hshape : handler E h req w
                   = try_catch (handler_try E h req) Caught w)
    by (destruct h; reflexivity).
  rewrite Hshape. unfold try_catch.
  destruct (handler_try E h req w) as [[r | e] w']; split; eauto.
Qed.

(** C2. A resolved caller whose role is not Admin gets an unauthorized reply
    (status 401) from every mutating handler, whatever the caller's year and
    whatever the store holds. *)
Theorem non_admin_mutation_unauthorized
    (h : Handler) (req : Request) (s : Store) (log : list Call) (u : User) :
  mutating h = true ->
  AuthController_user E req s = Ok (Some u) ->
  user_role u <> Admin ->
  exists message,
    handler E h req (s, log) = (Ok (Unauthorized message), (s, log)) /\
    statusCode (respond E (Unauthorized message)) = 401.
Proof.
  intros Hmut Hauth Hrole.
  assert (Hna : not_admin (Some u) = true).
  { simpl. by rewrite bool_decide_eq_false_2. }
  destruct h; try discriminate Hmut; clear Hmut; unfold_handlers; feed;
    eauto.
Qed.

(** C3. In a mutating handler the role check comes first: a caller that is
    not an Admin is answered by the role check, with its own message, before
    any lecture or module is looked up, hence before the year comparison. *)
Theorem role_check_precedes_year_check
    (h : Handler) (req : Request) (s : Store) (log : list Call)
    (user : option User) :
  mutating h = true ->
  AuthController_user E req s = Ok user ->
  not_admin user = true ->
  handler E h req (s, log) = (Ok (Unauthorized (role_message h)), (s, log)) /\
  role_message h <> "Unauthorized".
Proof.
  intros Hmut Hauth Hna.
  destruct h; try discriminate Hmut; clear Hmut; unfold_handlers; feed;
    (split; [ reflexivity | discriminate ]).
Qed.

(** An Admin passes the role check and is then held to the year comparison
    like any reader: with the module of another year the reply is the year
    check's. *)
Lemma admin_other_year_unauthorized
    (h : Handler) (req : Request) (s : Store) (log : list Call)
    (u : User) (lectureId : value) (lecture : LectureData) (m : ModuleData) :
  mutating h = true ->
  reaches_module_lookup E h req s (Some u) lectureId lecture ->
  module_findUnique E (subject_moduleId (lecture_subject lecture)) s
  = Ok (Some m) ->
  user_yearId u <> module_yearId m ->
  exists w',
    handler E h req (s, log) = (Ok (Unauthorized "Unauthorized"), w') /\
    fst w' = s.
Proof.
  intros Hmut (Hauth & Hrole & Hparam & Htruthy & Hlecture & Hlink) Hmodule Hyear.
  specialize (Hrole Hmut).
  destruct h; try discriminate Hmut; clear Hmut; simpl in Hlink;
    try (destruct (Hlink eq_refl) as (linkId & link & Hparam' & Htruthy' & Hlink'));
    clear Hlink;
    unfold_handlers; feed; unfold strict_neq; simpl;
    rewrite bool_decide_eq_false_2 by assumption; simpl; eauto.
Qed.

(** C5. [send], [unauthorized], [notFound] and [badRequest] answer with the
    envelope [{message, status}] and nothing else, [status] being the HTTP
    status code; the data a handler hands to [send] is not in the body. *)
Theorem formatters_send_envelope :
  (forall message status, envelope (responses.send message status)) /\
  (forall message, envelope (responses.unauthorized message)) /\
  (forall message, envelope (responses.notFound message)) /\
  (forall message, envelope (responses.badRequest message)) /\
  (forall message status data,
     envelope (respond E (Send message status data)) /\
     keys (body (respond E (Send message status data))) = ["message"; "status"] /\
     forall data',
       respond E (Send message status data)
       = respond E (Send message status data')).
Proof.
  unfold envelope; repeat split; intros; simpl; eauto.
Qed.

(** C1, as the code has it. When the run reaches the module lookup and no
    module is found, the handler never answers not found: [module?.yearId] is
    [undefined], so the year comparison answers unauthorized whenever the
    caller's [yearId] is not [undefined]. *)
Theorem missing_module_is_unauthorized
    (h : Handler) (req : Request) (s : Store) (log : list Call)
    (user : option User) (lectureId : value) (lecture : LectureData) :
  reaches_module_lookup E h req s user lectureId lecture ->
  module_findUnique E (subject_moduleId (lecture_subject lecture)) s = Ok None ->
  exists r w',
    handler E h req (s, log) = (Ok r, w') /\
    (forall message, r <> NotFound message) /\
    (user_yearId_opt user <> undefined -> r = Unauthorized "Unauthorized").
Proof.
  intros (Hauth & Hrole & Hparam & Htruthy & Hlecture & Hlink) Hmodule.
  destruct h; simpl in Hrole, Hlink;
    try specialize (Hrole eq_refl);
    try (destruct (Hlink eq_refl) as (linkId & link & Hparam' & Htruthy' & Hlink'));
    clear Hlink;
    unfold_handlers; feed; unfold strict_neq; simpl module_yearId_opt;
    (destruct (decide (user_yearId_opt user = undefined)) as [Hyear | Hyear];
     [ rewrite bool_decide_eq_true_2 by assumption
     | rewrite bool_decide_eq_false_2 by assumption ]);
    cbn [negb]; repeat case_match; simplify_eq;
    (eexists _, _; split; [ reflexivity | split; [ discriminate | done ] ]).
Qed.

(** X17. A read handler that has found the lecture and its module decides by
    the year alone (the caller's role, Student in particular, plays no part):
    different years give the unauthorized reply, equal years give the reply
    of [send] with status 200, to which the handler hands the data as the
    fourth argument. *)
Theorem read_decision_by_year
    (h : Handler) (req : Request) (s : Store) (log : list Call)
    (u : User) (lectureId : value) (lecture : LectureData) (m : ModuleData) :
  mutating h = false ->
  reaches_module_lookup E h req s (Some u) lectureId lecture ->
  module_findUnique E (subject_moduleId (lecture_subject lecture)) s
  = Ok (Some m) ->
  (user_yearId u <> module_yearId m ->
   exists w',
     handler E h req (s, log) = (Ok (Unauthorized "Unauthorized"), w') /\
     statusCode (respond E (Unauthorized "Unauthorized")) = 401) /\
  (user_yearId u = module_yearId m ->
   forall links,
     (h = h_getLinks ->
      lectureLinks_findMany E (lecture_id lecture) s = Ok links) ->
     exists message w',
       handler E h req (s, log)
       = (Ok (Send message 200 (read_payload h lecture links)), w') /\
       statusCode (respond E (Send message 200 (read_payload h lecture links)))
       = 200).
Proof.
  intros Hread (Hauth & _ & Hparam & Htruthy & Hlecture & _) Hmodule.
  split; intros Hyear.
  - destruct h; try discriminate Hread; clear Hread;
      unfold_handlers; feed; unfold strict_neq; simpl;
      rewrite bool_decide_eq_false_2 by assumption; simpl; eauto.
  - intros links Hlinks.
    destruct h; try discriminate Hread; clear Hread;
      try specialize (Hlinks eq_refl);
      unfold_handlers; feed; unfold strict_neq; simpl;
      rewrite bool_decide_eq_true_2 by assumption; simpl; feed; eauto.
Qed.

(** C9, as the code has it. In a read handler, a caller whose [yearId]
    evaluates to [undefined] (unresolved, or without the field; [null] is not
    [undefined]) and a lecture whose module is not found compare equal: the
    handler does not answer unauthorized and goes on to [send] with status
    200. *)
Theorem absent_years_compare_equal
    (h : Handler) (req : Request) (s : Store) (log : list Call)
    (user : option User) (lectureId : value) (lecture : LectureData)
    (links : list LectureLink) :
  mutating h = false ->
  reaches_module_lookup E h req s user lectureId lecture ->
  user_yearId_opt user = undefined ->
  module_findUnique E (subject_moduleId (lecture_subject lecture)) s = Ok None ->
  (h = h_getLinks ->
   lectureLinks_findMany E (lecture_id lecture) s = Ok links) ->
  strict_neq (user_yearId_opt user) (module_yearId_opt None) = false /\
  exists message w',
    handler E h req (s, log)
    = (Ok (Send message 200 (read_payload h lecture links)), w') /\
    statusCode (respond E (Send message 200 (read_payload h lecture links)))
    = 200.
Proof.
  intros Hread (Hauth & _ & Hparam & Htruthy & Hlecture & _) Hyear Hmodule Hlinks.
  split; [ by rewrite Hyear | ].
  destruct h; try discriminate Hread; clear Hread;
    try specialize (Hlinks eq_refl);
    unfold_handlers; feed; simpl module_yearId_opt; feed;
    simpl; feed; eauto.
Qed.

(** C8. An Admin of year 2 updating an existing lecture whose module is of
    year 2, with a body the schema accepts and a store that carries out the
    update, gets the update issued and the reply of [send] with status 200. *)
Theorem admin_update_succeeds
    (req : Request) (s s' : Store) (log : list Call) (u : User)
    (lectureId : value) (lecture : LectureData) (m : ModuleData)
    (data : list (string * json)) (updatedLecture : json) :
  AuthController_user E req s = Ok (Some u) ->
  user_role u = Admin ->
  user_yearId u = num 2 ->
  parameterExists E req "lectureId" = Ok lectureId ->
  truthy lectureId = true ->
  lectureData_findUnique E lectureId s = Ok (Some lecture) ->
  module_findUnique E (subject_moduleId (lecture_subject lecture)) s
  = Ok (Some m) ->
  module_yearId m = num 2 ->
  subjectLecture_update_safeParse E (req_body E req) = ParseSuccess data ->
  lectureData_update E lectureId data s = (Ok updatedLecture, s') ->
  updateLecture E req (s, log)
  = (Ok (Send "Lecture has been updated" 200 (row_payload updatedLecture)),
     (s', (log ++ [lectureData_findUnique_call lectureId;
                   module_findUnique_call
                     (subject_moduleId (lecture_subject lecture));
                   lectureData_update_call lectureId data])%list)) /\
  statusCode
    (respond E (Send "Lecture has been updated" 200 (row_payload updatedLecture)))
  = 200.
Proof.
  intros Hauth Hrole Hyear Hparam Htruthy Hlecture Hmodule Hmyear Hparse Hupdate.
  split; [ | reflexivity ].
  unfold_handlers; feed. simpl. feed. simpl. feed.
  unfold strict_neq. simpl. feed. simpl. feed.
  by rewrite <- !app_assoc.
Qed.

End Properties.

(** ** The statements on concrete requests *)

Section Samples.

Import Mem.

(** C1, as the claim states it, fails: a Student of year 1 reads lecture 6,
    which exists while its module 10 does not; the answer is unauthorized, not
    not found. *)
Lemma missing_module_get_is_unauthorized :
  lectureData_findUnique env (num 6) store = Ok (Some lecture6) /\
  module_findUnique env (subject_moduleId (lecture_subject lecture6)) store
  = Ok None /\
  get env (request (Some student1) (num 6) undefined JNull) (store, [])
  = (Ok (Unauthorized "Unauthorized"), (store, reads_of_lecture6)) /\
  statusCode (respond env (Unauthorized "Unauthorized")) = 401 /\
  ~ (exists message w',
       get env (request (Some student1) (num 6) undefined JNull) (store, [])
       = (Ok (NotFound message), w')).
Proof.
  assert (Hrun :
    get env (request (Some student1) (num 6) undefined JNull) (store, [])
    = (Ok (Unauthorized "Unauthorized"), (store, reads_of_lecture6)))
    by (vm_compute; reflexivity).
  repeat split; try reflexivity; try exact Hrun.
  intros (message & w' & Hnf). rewrite Hrun in Hnf. discriminate Hnf.
Qed.

Lemma missing_module_is_unauthorized_witness :
  reaches_module_lookup env h_deleteLink
    (request (Some admin2) (num 6) (num 3) JNull) store
    (Some admin2) (num 6) lecture6 /\
  exists r w',
    handler env h_deleteLink
      (request (Some admin2) (num 6) (num 3) JNull) (store, [])
    = (Ok r, w') /\
    (forall message, r <> NotFound message) /\
    (user_yearId_opt (Some admin2) <> undefined ->
     r = Unauthorized "Unauthorized").
Proof.
  assert (Hreach :
    reaches_module_lookup env h_deleteLink
      (request (Some admin2) (num 6) (num 3) JNull) store
      (Some admin2) (num 6) lecture6).
  { repeat split; try reflexivity.
    intros _. exists (num 3), link3. repeat split; reflexivity. }
  split; [ exact Hreach | ].
  apply (missing_module_is_unauthorized env h_deleteLink
           (request (Some admin2) (num 6) (num 3) JNull) store []
           (Some admin2) (num 6) lecture6 Hreach).
  reflexivity.
Defined.

Lemma non_admin_mutation_unauthorized_witness :
  exists message,
    handler env h_deleteLink
      (request (Some student1) (num 5) (num 3) JNull) (store, [])
    = (Ok (Unauthorized message), (store, [])) /\
    statusCode (respond env (Unauthorized message)) = 401.
Proof.
  apply (non_admin_mutation_unauthorized env h_deleteLink
           (request (Some student1) (num 5) (num 3) JNull) store [] student1).
  - reflexivity.
  - reflexivity.
  - discriminate.
Defined.

Lemma role_check_precedes_year_check_witness :
  strict_neq (user_yearId student1) (num 2) = true /\
  handler env h_updateLecture
    (request (Some student1) (num 5) undefined title) (store, [])
  = (Ok (Unauthorized (role_message h_updateLecture)), (store, [])) /\
  role_message h_updateLecture <> "Unauthorized".
Proof.
  split; [ reflexivity | ].
  apply (role_check_precedes_year_check env h_updateLecture
           (request (Some student1) (num 5) undefined title) store []
           (Some student1)); reflexivity.
Defined.

Lemma read_decision_by_year_witness :
  (exists w',
     handler env h_get
       (request (Some student1) (num 5) undefined JNull) (store, [])
     = (Ok (Unauthorized "Unauthorized"), w') /\
     statusCode (respond env (Unauthorized "Unauthorized")) = 401) /\
  (exists message w',
     handler env h_getLinks
       (request (Some student2) (num 5) undefined JNull) (store, [])
     = (Ok (Send message 200 (read_payload h_getLinks lecture5 [link3])), w') /\
     statusCode
       (respond env (Send message 200 (read_payload h_getLinks lecture5 [link3])))
     = 200).
Proof.
  split.
  - apply (read_decision_by_year env h_get
             (request (Some student1) (num 5) undefined JNull) store []
             student1 (num 5) lecture5 {| module_yearId := num 2 |}).
    + reflexivity.
    + repeat split; try reflexivity; discriminate.
    + reflexivity.
    + discriminate.
  - apply (read_decision_by_year env h_getLinks
             (request (Some student2) (num 5) undefined JNull) store []
             student2 (num 5) lecture5 {| module_yearId := num 2 |}).
    + reflexivity.
    + repeat split; try reflexivity; discriminate.
    + reflexivity.
    + reflexivity.
    + intros _. reflexivity.
Defined.

Lemma absent_years_compare_equal_witness :
  strict_neq (user_yearId_opt None) (module_yearId_opt None) = false /\
  exists message w',
    handler env h_get (request None (num 6) undefined JNull) (store, [])
    = (Ok (Send message 200 (read_payload h_get lecture6 [])), w') /\
    statusCode (respond env (Send message 200 (read_payload h_get lecture6 [])))
    = 200.
Proof.
  apply (absent_years_compare_equal env h_get
           (request None (num 6) undefined JNull) store [] None (num 6) lecture6 []).
  - reflexivity.
  - repeat split; try reflexivity; discriminate.
  - reflexivity.
  - reflexivity.
  - discriminate.
Defined.

Lemma admin_update_succeeds_witness :
  exists s',
    updateLecture env (request (Some admin2) (num 5) undefined title) (store, [])
    = (Ok (Send "Lecture has been updated" 200
             (row_payload (JObject [("title", JString "Anatomy 1");
                                    ("id", JNumber 5)]))),
       (s', [lectureData_findUnique_call (num 5);
             module_findUnique_call (num 9);
             lectureData_update_call (num 5) [("title", JString "Anatomy 1")]])) /\
    lecture_columns s' !! 5 = Some [("title", JString "Anatomy 1")].
Proof.
  eexists. split.
  - apply (admin_update_succeeds env
             (request (Some admin2) (num 5) undefined title) store _ []
             admin2 (num 5) lecture5 {| module_yearId := num 2 |}
             [("title", JString "Anatomy 1")]); reflexivity.
  - reflexivity.
Defined.

Lemma rejection_leaves_store_unchanged_witness :
  store = store /\
  exists reads,
    [lectureData_findUnique_call (num 6); lectureLinks_findUnique_call (num 3);
     module_findUnique_call (num 10)] = ([] ++ reads)%list /\
    forallb is_read reads = true.
Proof.
  apply (rejection_leaves_store_unchanged env h_deleteLink
           (request (Some admin2) (num 6) (num 3) JNull) store store []
           [lectureData_findUnique_call (num 6);
            lectureLinks_findUnique_call (num 3);
            module_findUnique_call (num 10)]
           (Unauthorized "Unauthorized")); reflexivity.
Defined.

(** C6. A request without [lectureId] is answered by [badRequest], whose
    status is 500, the status of the [catch] block, not one of a client
    error. *)
Theorem missing_lectureId_answers_500 :
  get env {| session := Some student2; params := ∅; payload := JNull |}
      (store, [])
  = (Ok (BadRequest "Invalid lectureId"), (store, [])) /\
  statusCode (respond env (BadRequest "Invalid lectureId")) = 500 /\
  statusCode (respond env (BadRequest "Invalid lectureId"))
  = statusCode (respond env (Caught unavailable)).
Proof. repeat split. Qed.

(** With the store down the first query throws, and the handler answers with
    the reply of its [catch] block. *)
Example deleteLink_store_down :
  handler_try env h_deleteLink
    (request (Some admin2) (num 5) (num 3) JNull) (down, [])
  = (Throw unavailable, (down, [])) /\
  deleteLink env (request (Some admin2) (num 5) (num 3) JNull) (down, [])
  = (Ok (Caught unavailable), (down, [])).
Proof. split; reflexivity. Qed.

(** A caller whose [yearId] is [null] does not compare equal to a missing
    module: [null !== undefined]. *)
Example null_year_missing_module :
  get env (request (Some {| user_role := Student; user_yearId := null |})
                   (num 6) undefined JNull) (store, [])
  = (Ok (Unauthorized "Unauthorized"), (store, reads_of_lecture6)).
Proof. reflexivity. Qed.

(** C9, as the claim states it, fails for a caller without a year whose
    [yearId] is [null]: with the module of lecture 6 missing, [get] and
    [getLinks] answer unauthorized. *)
Lemma null_year_missing_module_is_unauthorized :
  truthy (user_yearId {| user_role := Student; user_yearId := null |}) = false /\
  lectureData_findUnique env (num 6) store = Ok (Some lecture6) /\
  module_findUnique env (subject_moduleId (lecture_subject lecture6)) store
  = Ok None /\
  get env (request (Some {| user_role := Student; user_yearId := null |})
                   (num 6) undefined JNull) (store, [])
  = (Ok (Unauthorized "Unauthorized"), (store, reads_of_lecture6)) /\
  getLinks env (request (Some {| user_role := Student; user_yearId := null |})
                        (num 6) undefined JNull) (store, [])
  = (Ok (Unauthorized "Unauthorized"), (store, reads_of_lecture6)) /\
  statusCode (respond env (Unauthorized "Unauthorized")) = 401.
Proof. repeat split. Qed.

(** C4. A Student of year 2 reads lecture 5, whose module is of year 2: the
    handlers pass the lecture, or its links, to [send] as a fourth argument,
    and the response is status 200 with the message and the status only; the
    data is not returned. *)
Theorem authorized_read_returns_no_data :
  get env (request (Some student2) (num 5) undefined JNull) (store, [])
  = (Ok (Send "lectureId [5] - Data" 200 (lecture_payload lecture5)),
     (store, [lectureData_findUnique_call (num 5);
              module_findUnique_call (num 9)])) /\
  respond env (Send "lectureId [5] - Data" 200 (lecture_payload lecture5))
  = {| statusCode := 200;
       body := JObject [("message", JString "lectureId [5] - Data");
                        ("status", JNumber 200)] |} /\
  getLinks env (request (Some student2) (num 5) undefined JNull) (store, [])
  = (Ok (Send "lectureId [5] - Links" 200 (links_payload [link3])),
     (store, [lectureData_findUnique_call (num 5);
              module_findUnique_call (num 9);
              lectureLinks_findMany_call (num 5)])) /\
  respond env (Send "lectureId [5] - Links" 200 (links_payload [link3]))
  = {| statusCode := 200;
       body := JObject [("message", JString "lectureId [5] - Links");
                        ("status", JNumber 200)] |}.
Proof. repeat split. Qed.

End Samples.

(** ** Further properties of the handlers *)

Lemma issued_app (log new : list Call) : issued log (log ++ new)%list = new.
Proof. unfold issued. by rewrite drop_app_length. Qed.

Lemma issued_refl (log : list Call) : issued log log = [].
Proof. unfold issued. by rewrite drop_all. Qed.

Lemma not_admin_false (user : option User) :
  not_admin user = false ->
  exists u, user = Some u /\ user_role u = Admin.
Proof.
  destruct user as [u |]; simpl; [ | discriminate ].
  intros H. apply negb_false_iff, bool_decide_eq_true in H. eauto.
Qed.

Lemma strict_neq_false (a b : value) : strict_neq a b = false -> a = b.
Proof.
  unfold strict_neq. intros H.
  by apply negb_false_iff, bool_decide_eq_true in H.
Qed.

Lemma assoc_assign_eq (k : string) (v : json) (fields : list (string * json)) :
  assoc k (assign k v fields) = Some v.
Proof.
  induction fields as [| [k' v'] rest IH]; simpl.
  - by rewrite String.eqb_refl.
  - destruct (String.eqb k k') eqn:Hk; simpl; by rewrite ?String.eqb_refl, ?Hk.
Qed.

Lemma assoc_assign_ne (k k' : string) (v : json)
    (fields : list (string * json)) :
  k <> k' -> assoc k (assign k' v fields) = assoc k fields.
Proof.
  intros Hne. induction fields as [| [k0 v0] rest IH]; simpl.
  - by rewrite (proj2 (String.eqb_neq k k')).
  - destruct (String.eqb k' k0) eqn:Hk; simpl.
    + apply String.eqb_eq in Hk. subst k0.
      by rewrite (proj2 (String.eqb_neq k k')).
    + by rewrite IH.
Qed.

(** Put the log of a finished run in the form [log ++ calls]. *)
Ltac tidy_log :=
  cbn [fst snd] in *; rewrite <- ?app_assoc in *; cbn [app] in *;
  rewrite ?issued_app, ?issued_refl in *.

(** All the runs of handler [h], one goal per path. *)
Ltac explore h :=
  destruct h; unfold_handlers; simpl in *; repeat case_match; simplify_eq.

Ltac use_checks :=
  repeat match goal with
         | H : not_admin _ = false |- _ =>
             apply not_admin_false in H as (? & -> & ?)
         | H : strict_neq _ _ = false |- _ => apply strict_neq_false in H
         | H : negb _ = false |- _ => apply negb_false_iff in H
         | H : negb _ = true |- _ => apply negb_true_iff in H
         end.

Section Gates.

Context {Request Store : Type} (E : Env Request Store).

(** X1. A create, update or delete call reaches the data store only from a
    mutating handler, and only after the caller was resolved to an Admin and
    the year comparison on the lecture named by the request let the caller
    through. *)
Theorem write_needs_admin_and_year
    (h : Handler) (req : Request) (s s' : Store) (log log' : list Call)
    (out : outcome Reply) :
  handler E h req (s, log) = (out, (s', log')) ->
  existsb is_write (issued log log') = true ->
  mutating h = true /\ passed_checks E req s.
Proof.
  intros Hrun Hwrite.
  explore h; tidy_log; try discriminate Hwrite; use_checks;
    (split; [ reflexivity | ]);
    unfold passed_checks, year_matched; eauto 12.
Qed.

(** X2. [get] and [getLinks] only read: however the run ends, the store is
    the one the handler found and every call it issued is a lookup. *)
Theorem read_handlers_never_write
    (h : Handler) (req : Request) (s s' : Store) (log log' : list Call)
    (out : outcome Reply) :
  mutating h = false ->
  handler E h req (s, log) = (out, (s', log')) ->
  s' = s /\
  log' = (log ++ issued log log')%list /\
  forallb is_read (issued log log') = true.
Proof.
  intros Hread Hrun.
  explore h; try discriminate Hread; tidy_log;
    rewrite ?app_nil_r; repeat split.
Qed.

(** X3. A run issues at most one create, update or delete call, and it is
    the last call of the run; a run without such a call leaves the store as it
    found it. *)
Theorem at_most_one_write_and_last
    (h : Handler) (req : Request) (s s' : Store) (log log' : list Call)
    (out : outcome Reply) :
  handler E h req (s, log) = (out, (s', log')) ->
  exists reads writes,
    log' = (log ++ reads ++ writes)%list /\
    forallb is_read reads = true /\
    forallb is_write writes = true /\
    (length writes <= 1)%nat /\
    (writes = [] -> s' = s).
Proof.
  intros Hrun.
  exists (List.filter is_read (issued log log')),
         (List.filter is_write (issued log log')).
  explore h; tidy_log; cbn; rewrite ?app_nil_r;
    repeat split; try lia; try discriminate.
Qed.

(** X4. A read handler answers through [send] only with status 200 and only
    when the lecture was found and [user?.yearId] equals [module?.yearId]. *)
Theorem read_success_means_year_match
    (h : Handler) (req : Request) (s : Store) (log : list Call)
    (message : string) (status : Z) (data : Payload)
    (w' : Store * list Call) :
  mutating h = false ->
  handler E h req (s, log) = (Ok (Send message status data), w') ->
  status = 200 /\
  exists user,
    AuthController_user E req s = Ok user /\ year_matched E req s user.
Proof.
  intros Hread Hrun.
  explore h; try discriminate Hread; tidy_log; use_checks;
    (split; [ reflexivity | ]); unfold year_matched; eauto 12.
Qed.

(** X5. The route parameters are checked before the data store is touched:
    a bad-request reply comes with no call issued, and it names [lectureId]
    when that parameter is falsy, [linkId] (link handlers only) otherwise. *)
Theorem bad_request_before_any_lookup
    (h : Handler) (req : Request) (s s' : Store) (log log' : list Call)
    (message : string) :
  handler E h req (s, log) = (Ok (BadRequest message), (s', log')) ->
  s' = s /\ log' = log /\
  ((message = "Invalid lectureId" /\
    exists v, parameterExists E req "lectureId" = Ok v /\ truthy v = false) \/
   (takes_link h = true /\ message = "Invalid linkId" /\
    exists v, parameterExists E req "linkId" = Ok v /\ truthy v = false)).
Proof.
  intros Hrun.
  explore h; use_checks; (split; [ reflexivity | split; [ reflexivity | ] ]);
    first [ left; split; [ reflexivity | solve [ eauto ] ]
          | right; split; [ reflexivity | split; [ reflexivity | solve [ eauto ] ] ] ].
Qed.

(** X6. A not-found reply is about the lecture or, in the link handlers, the
    link named by the request, whose lookup returned nothing; it is sent before
    the module is looked up. *)
Theorem not_found_is_lecture_or_link
    (h : Handler) (req : Request) (s s' : Store) (log log' : list Call)
    (message : string) :
  handler E h req (s, log) = (Ok (NotFound message), (s', log')) ->
  s' = s /\
  existsb is_module_lookup (issued log log') = false /\
  ((message = "Lecture doesn't exist." /\
    exists lectureId,
      parameterExists E req "lectureId" = Ok lectureId /\
      lectureData_findUnique E lectureId s = Ok None) \/
   (takes_link h = true /\ message = "Link doesn't exist." /\
    exists linkId,
      parameterExists E req "linkId" = Ok linkId /\
      lectureLinks_findUnique E linkId s = Ok None)).
Proof.
  intros Hrun.
  explore h; tidy_log;
    (split; [ reflexivity | split; [ reflexivity | ] ]);
    first [ left; split; [ reflexivity | solve [ eauto ] ]
          | right; split; [ reflexivity | split; [ reflexivity | solve [ eauto ] ] ] ].
Qed.

Lemma try_never_returns_caught
    (h : Handler) (req : Request) (w w' : Store * list Call) (e : json) :
  handler_try E h req w <> (Ok (Caught e), w').
Proof. intros Hrun. destruct w. explore h. Qed.

(** X7. Leaving aside the replies of [validationErrors], the response a
    handler sends tells whether the body of its [try] threw: if it did, the
    response has status 500 and the three fields of the [catch] block, with
    the thrown value as [errorObject]; if it did not, the response is the bare
    envelope [{message, status}], without [errorObject]. *)
Theorem errorObject_exactly_when_thrown
    (h : Handler) (req : Request) (w w' : Store * list Call) (r : Reply) :
  handler E h req w = (Ok r, w') ->
  (forall errors, r <> ValidationErrors errors) ->
  match handler_try E h req w with
  | (Throw e, _) =>
      statusCode (respond E r) = 500 /\
      keys (body (respond E r)) = ["errorObject"; "message"; "status"] /\
      field "errorObject" (body (respond E r)) = Some e
  | (Ok _, _) =>
      envelope (respond E r) /\
      field "errorObject" (body (respond E r)) = None
  end.
Proof.
  intros Hrun Hnv.
  assert (Hshape : handler E h req w
                   = try_catch (handler_try E h req) Caught w)
    by (destruct h; reflexivity).
  rewrite Hshape in Hrun. unfold try_catch in Hrun.
  destruct (handler_try E h req w) as [[r0 | e] w0] eqn:Htry; simplify_eq.
  - destruct r as [message status data | message | message | message
                   | errors | e].
    + split; [ by exists message | reflexivity ].
    + split; [ by exists message | reflexivity ].
    + split; [ by exists message | reflexivity ].
    + split; [ by exists message | reflexivity ].
    + by destruct (Hnv errors).
    + by apply try_never_returns_caught in Htry.
  - repeat split.
Qed.

(** X8. Only [updateLecture], [createLink] and [updateLink] validate the
    body, and they do so after the role and year checks: a validation-errors
    reply means the caller is an Admin of the matching year and the handler's
    schema rejected the body. *)
Theorem validation_errors_after_checks
    (h : Handler) (req : Request) (s : Store) (log : list Call)
    (errors : json) (w' : Store * list Call) :
  handler E h req (s, log) = (Ok (ValidationErrors errors), w') ->
  passed_checks E req s /\
  exists parse error,
    schema_of E h = Some parse /\
    parse (req_body E req) = ParseFailure error /\
    extractErrors E (ParseFailure error) = Ok errors.
Proof.
  intros Hrun.
  explore h; tidy_log; use_checks;
    (split; [ unfold passed_checks, year_matched; eauto 12 | eauto 10 ]).
Qed.

(** X9. [get] and [getLinks] refuse the same requests: one ends in a given
    rejection exactly when the other does, after the same lookups. *)
Theorem get_getLinks_same_rejections
    (req : Request) (w w' : Store * list Call) (r : Reply) :
  rejection r = true ->
  get E req w = (Ok r, w') <-> getLinks E req w = (Ok r, w').
Proof.
  intros Hrej. destruct w as [s log].
  unfold_handlers; simpl; repeat case_match; simplify_eq;
    split; intros H; simplify_eq; try reflexivity; discriminate Hrej.
Qed.

End Gates.

(** Follow one path of a handler under the known results of its calls. *)
Ltac follow :=
  unfold_handlers;
  repeat (feed; simpl; unfold strict_neq;
          rewrite ?bool_decide_eq_true_2 by reflexivity);
  rewrite <- ?app_assoc.

Section Paths.

Context {Request Store : Type} (E : Env Request Store).

(** X10. A mutating handler answers through [send] only after the role and
    year checks and after its write was issued; the status is 201 for
    [createLink] and 200 for the others. *)
Theorem success_reply_means_authorised
    (h : Handler) (req : Request) (s s' : Store) (log log' : list Call)
    (message : string) (status : Z) (data : Payload) :
  mutating h = true ->
  handler E h req (s, log) = (Ok (Send message status data), (s', log')) ->
  passed_checks E req s /\
  existsb is_write (issued log log') = true /\
  status = match h with h_createLink => 201 | _ => 200 end.
Proof.
  intros Hmut Hrun.
  explore h; try discriminate Hmut; tidy_log; use_checks;
    (split; [ unfold passed_checks, year_matched; eauto 12 | ]);
    split; reflexivity.
Qed.

(** X11. The link [createLink] stores belongs to the lecture that was found
    and is dated by the server: the [lectureId] and [createdAt] of the data
    handed to the store are the lecture's id and [currentDate()], whatever the
    body says, and the other fields are those of the parsed body. *)
Theorem createLink_stamps_lecture_and_date
    (req : Request) (s s' : Store) (log : list Call) (u : User)
    (lectureId : value) (lecture : LectureData) (module : option ModuleData)
    (parsed : list (string * json)) (date createdLink : json) :
  let data :=
    assign "createdAt" date
      (assign "lectureId" (json_of_value (lecture_id lecture)) parsed) in
  reaches_module_lookup E h_createLink req s (Some u) lectureId lecture ->
  module_findUnique E (subject_moduleId (lecture_subject lecture)) s
  = Ok module ->
  user_yearId u = module_yearId_opt module ->
  linkSchema_create_safeParse E (req_body E req) = ParseSuccess parsed ->
  currentDate E = Ok date ->
  lectureLinks_create E data s = (Ok createdLink, s') ->
  createLink E req (s, log)
  = (Ok (Send "Lecture Link has been created" 201 (row_payload createdLink)),
     (s', (log ++ [lectureData_findUnique_call lectureId;
                   module_findUnique_call
                     (subject_moduleId (lecture_subject lecture));
                   lectureLinks_create_call data])%list)) /\
  assoc "lectureId" data = Some (json_of_value (lecture_id lecture)) /\
  assoc "createdAt" data = Some date /\
  forall k, k <> "lectureId" -> k <> "createdAt" ->
            assoc k data = assoc k parsed.
Proof.
  intros data (Hauth & Hrole & Hparam & Htruthy & Hlecture & _)
         Hmodule Hyear Hparse Hdate Hcreate.
  specialize (Hrole eq_refl). repeat split.
  - subst data. by follow.
  - unfold data. by rewrite assoc_assign_ne, assoc_assign_eq.
  - apply assoc_assign_eq.
  - intros k Hk1 Hk2. unfold data. by rewrite !assoc_assign_ne.
Qed.

(** X12. [deleteLink] checks the year of the lecture named by the request and
    deletes the link named by the request; nothing ties the one to the other.
    An Admin whose year matches the lecture gets the delete issued for the
    link's id. *)
Theorem deleteLink_checks_lecture_deletes_link
    (req : Request) (s s' : Store) (log : list Call) (u : User)
    (lectureId linkId : value) (lecture : LectureData) (link : LectureLink)
    (module : option ModuleData) (deletedLink : json) :
  AuthController_user E req s = Ok (Some u) ->
  user_role u = Admin ->
  parameterExists E req "lectureId" = Ok lectureId ->
  truthy lectureId = true ->
  parameterExists E req "linkId" = Ok linkId ->
  truthy linkId = true ->
  lectureData_findUnique E lectureId s = Ok (Some lecture) ->
  lectureLinks_findUnique E linkId s = Ok (Some link) ->
  module_findUnique E (subject_moduleId (lecture_subject lecture)) s
  = Ok module ->
  user_yearId u = module_yearId_opt module ->
  lectureLinks_delete E (link_id link) s = (Ok deletedLink, s') ->
  deleteLink E req (s, log)
  = (Ok (Send "Link has been deleted" 200 (row_payload deletedLink)),
     (s', (log ++ [lectureData_findUnique_call lectureId;
                   lectureLinks_findUnique_call linkId;
                   module_findUnique_call
                     (subject_moduleId (lecture_subject lecture));
                   lectureLinks_delete_call (link_id link)])%list)).
Proof.
  intros Hauth Hrole Hparam Htruthy HparamL HtruthyL Hlecture Hlink
         Hmodule Hyear Hdelete.
  by follow.
Qed.

(** X13. [deleteLecture] by an Admin whose year matches the lecture's module
    issues the delete for the [lectureId] of the request and answers 200; the
    body of the request is not looked at. *)
Theorem deleteLecture_succeeds
    (req : Request) (s s' : Store) (log : list Call) (u : User)
    (lectureId : value) (lecture : LectureData) (module : option ModuleData)
    (deletedLecture : json) :
  reaches_module_lookup E h_deleteLecture req s (Some u) lectureId lecture ->
  module_findUnique E (subject_moduleId (lecture_subject lecture)) s
  = Ok module ->
  user_yearId u = module_yearId_opt module ->
  lectureData_delete E lectureId s = (Ok deletedLecture, s') ->
  deleteLecture E req (s, log)
  = (Ok (Send "Lecture has been deleted" 200 (row_payload deletedLecture)),
     (s', (log ++ [lectureData_findUnique_call lectureId;
                   module_findUnique_call
                     (subject_moduleId (lecture_subject lecture));
                   lectureData_delete_call lectureId])%list)).
Proof.
  intros (Hauth & Hrole & Hparam & Htruthy & Hlecture & _) Hmodule Hyear Hdelete.
  specialize (Hrole eq_refl).
  by follow.
Qed.

(** X14. The link handlers read both route parameters before they test
    either: with a falsy [lectureId] the reply is the bad request about
    [lectureId] whatever [linkId] is, unless reading [linkId] throws, which
    gives the reply of the [catch] block. *)
Theorem link_handlers_read_both_parameters
    (h : Handler) (req : Request) (s : Store) (log : list Call)
    (user : option User) (lectureId : value) :
  takes_link h = true ->
  AuthController_user E req s = Ok user ->
  not_admin user = false ->
  parameterExists E req "lectureId" = Ok lectureId ->
  truthy lectureId = false ->
  handler E h req (s, log)
  = (match parameterExists E req "linkId" with
     | Ok _ => Ok (BadRequest "Invalid lectureId")
     | Throw errorObject => Ok (Caught errorObject)
     end, (s, log)).
Proof.
  intros Hlink Hauth Hrole Hparam Hfalsy.
  destruct h; try discriminate Hlink; clear Hlink;
    unfold_handlers; feed;
    destruct (parameterExists E req "linkId"); feed; reflexivity.
Qed.

(** X15. The link handlers look up both the lecture and the link before they
    test either: with the lecture missing the reply is the not found about the
    lecture whether or not the link exists, unless the link lookup throws,
    which gives the reply of the [catch] block. *)
Theorem link_handlers_look_up_both
    (h : Handler) (req : Request) (s : Store) (log : list Call)
    (user : option User) (lectureId linkId : value) :
  takes_link h = true ->
  AuthController_user E req s = Ok user ->
  not_admin user = false ->
  parameterExists E req "lectureId" = Ok lectureId ->
  truthy lectureId = true ->
  parameterExists E req "linkId" = Ok linkId ->
  truthy linkId = true ->
  lectureData_findUnique E lectureId s = Ok None ->
  handler E h req (s, log)
  = (match lectureLinks_findUnique E linkId s with
     | Ok _ => Ok (NotFound "Lecture doesn't exist.")
     | Throw errorObject => Ok (Caught errorObject)
     end,
     (s, (log ++ [lectureData_findUnique_call lectureId;
                  lectureLinks_findUnique_call linkId])%list)).
Proof.
  intros Hlink Hauth Hrole Hparam Htruthy HparamL HtruthyL Hlecture.
  destruct h; try discriminate Hlink; clear Hlink;
    unfold_handlers; feed; simpl; feed;
    destruct (lectureLinks_findUnique E linkId s) as [[link |] | e];
    simpl; by rewrite <- !app_assoc.
Qed.

End Paths.

(** [conflict] answers with the envelope [{message, status}] and status
    409, for a given and for a defaulted message. *)
Theorem conflict_sends_envelope (message : option string) :
  envelope (responses.conflict message) /\
  statusCode (responses.conflict message) = 409 /\
  field "message" (body (responses.conflict message))
  = Some (JString (default "Something went wrong." message)).
Proof. unfold envelope; repeat split; simpl; eauto. Qed.

(** X16. [Faculty.findAll] and [Faculty.paginate] return the rows that
    [findMany] returns for the query built from their arguments (an omitted
    argument takes its default, [null] does not), and the empty list when
    that call throws, so they never throw; [Faculty.find] has no [try]: it
    returns or throws what [findUnique] does for the id, with [select]
    defaulting to [dbSelectors]. *)
Theorem Faculty_lists_swallow_failures
    {Store : Type} (db : FacultyDb Store) (s : Store)
    (search skip take orderBy orderType id : value)
    (select : option Selectors) :
  let query :=
    {| where_OR_name_contains := [or_default (str "") search];
       findMany_select := Faculty.dbSelectors;
       findMany_orderBy := (toString (or_default (str "id") orderBy),
                            or_default (str "desc") orderType);
       findMany_skip := None;
       findMany_take := None |} in
  let page :=
    {| where_OR_name_contains := [or_default (str "") search];
       findMany_select := Faculty.dbSelectors;
       findMany_orderBy := (toString (or_default (str "id") orderBy),
                            or_default (str "desc") orderType);
       findMany_skip := Some (or_default (num 0) skip);
       findMany_take := Some (or_default (num 10) take) |} in
  (forall rows,
     faculty_findMany db query s = Ok rows ->
     Faculty.findAll db search orderBy orderType s = Ok rows) /\
  (forall e,
     faculty_findMany db query s = Throw e ->
     Faculty.findAll db search orderBy orderType s = Ok []) /\
  (forall rows,
     faculty_findMany db page s = Ok rows ->
     Faculty.paginate db search skip take orderBy orderType s = Ok rows) /\
  (forall e,
     faculty_findMany db page s = Throw e ->
     Faculty.paginate db search skip take orderBy orderType s = Ok []) /\
  Faculty.find db id select s
  = faculty_findUnique db
      {| where_id := id;
         findUnique_select := default Faculty.dbSelectors select |} s.
Proof.
  intros query page.
  unfold Faculty.findAll, Faculty.paginate, Faculty.find.
  fold query. fold page.
  repeat split; intros x Hstore; by rewrite Hstore.
Qed.

(** ** The further properties on concrete requests *)

Section MoreSamples.

Import Mem.

Lemma write_needs_admin_and_year_witness :
  mutating h_updateLecture = true /\
  passed_checks env (request (Some admin2) (num 5) undefined title) store.
Proof.
  eapply (write_needs_admin_and_year env h_updateLecture
            (request (Some admin2) (num 5) undefined title) store _ [] _ _).
  - vm_compute. reflexivity.
  - reflexivity.
Defined.

Lemma read_handlers_never_write_witness :
  store = store /\
  [lectureData_findUnique_call (num 5); module_findUnique_call (num 9);
   lectureLinks_findMany_call (num 5)]
  = ([] ++ issued []
             [lectureData_findUnique_call (num 5);
              module_findUnique_call (num 9);
              lectureLinks_findMany_call (num 5)])%list /\
  forallb is_read
    (issued [] [lectureData_findUnique_call (num 5);
                module_findUnique_call (num 9);
                lectureLinks_findMany_call (num 5)]) = true.
Proof.
  apply (read_handlers_never_write env h_getLinks
           (request (Some student2) (num 5) undefined JNull) store store []
           [lectureData_findUnique_call (num 5); module_findUnique_call (num 9);
            lectureLinks_findMany_call (num 5)]
           (Ok (Send "lectureId [5] - Links" 200 (links_payload [link3]))));
    reflexivity.
Defined.

Lemma at_most_one_write_and_last_witness :
  exists reads writes,
    [lectureData_findUnique_call (num 5); lectureLinks_findUnique_call (num 3);
     module_findUnique_call (num 9); lectureLinks_delete_call (num 3)]
    = ([] ++ reads ++ writes)%list /\
    forallb is_read reads = true /\
    forallb is_write writes = true /\
    (length writes <= 1)%nat /\
    (writes = [] ->
     fst (snd (deleteLink env (request (Some admin2) (num 5) (num 3) JNull)
                 (store, []))) = store).
Proof.
  eapply (at_most_one_write_and_last env h_deleteLink
            (request (Some admin2) (num 5) (num 3) JNull) store _ [] _ _).
  vm_compute. reflexivity.
Defined.

Lemma read_success_means_year_match_witness :
  200 = 200 /\
  exists user,
    AuthController_user env
      (request (Some student2) (num 5) undefined JNull) store = Ok user /\
    year_matched env (request (Some student2) (num 5) undefined JNull)
      store user.
Proof.
  eapply (read_success_means_year_match env h_get
            (request (Some student2) (num 5) undefined JNull) store []
            "lectureId [5] - Data" 200 (lecture_payload lecture5) _).
  - reflexivity.
  - vm_compute. reflexivity.
Defined.

Lemma bad_request_before_any_lookup_witness :
  store = store /\ @nil Call = [] /\
  (("Invalid linkId" = "Invalid lectureId" /\
    exists v,
      parameterExists env (request (Some admin2) (num 5) undefined JNull)
        "lectureId" = Ok v /\ truthy v = false) \/
   (takes_link h_deleteLink = true /\ "Invalid linkId" = "Invalid linkId" /\
    exists v,
      parameterExists env (request (Some admin2) (num 5) undefined JNull)
        "linkId" = Ok v /\ truthy v = false)).
Proof.
  apply (bad_request_before_any_lookup env h_deleteLink
           (request (Some admin2) (num 5) undefined JNull) store store [] []
           "Invalid linkId").
  reflexivity.
Defined.

Lemma not_found_is_lecture_or_link_witness :
  store = store /\
  existsb is_module_lookup
    (issued [] [lectureData_findUnique_call (num 5);
                lectureLinks_findUnique_call (num 99)]) = false /\
  (("Link doesn't exist." = "Lecture doesn't exist." /\
    exists lectureId,
      parameterExists env (request (Some admin2) (num 5) (num 99) JNull)
        "lectureId" = Ok lectureId /\
      lectureData_findUnique env lectureId store = Ok None) \/
   (takes_link h_deleteLink = true /\
    "Link doesn't exist." = "Link doesn't exist." /\
    exists linkId,
      parameterExists env (request (Some admin2) (num 5) (num 99) JNull)
        "linkId" = Ok linkId /\
      lectureLinks_findUnique env linkId store = Ok None)).
Proof.
  apply (not_found_is_lecture_or_link env h_deleteLink
           (request (Some admin2) (num 5) (num 99) JNull) store store []
           [lectureData_findUnique_call (num 5);
            lectureLinks_findUnique_call (num 99)]
           "Link doesn't exist.").
  reflexivity.
Defined.

Lemma errorObject_exactly_when_thrown_witness :
  (statusCode (respond env (Caught unavailable)) = 500 /\
   keys (body (respond env (Caught unavailable)))
   = ["errorObject"; "message"; "status"] /\
   field "errorObject" (body (respond env (Caught unavailable)))
   = Some unavailable) /\
  (statusCode (respond env (BadRequest "Invalid lectureId")) = 500 /\
   envelope (respond env (BadRequest "Invalid lectureId")) /\
   field "errorObject" (body (respond env (BadRequest "Invalid lectureId")))
   = None).
Proof.
  split.
  - apply (errorObject_exactly_when_thrown env h_createLink
             (request (Some admin2) (num 5) undefined title)
             (down, []) (down, []) (Caught unavailable)).
    + reflexivity.
    + discriminate.
  - split; [ reflexivity | ].
    apply (errorObject_exactly_when_thrown env h_get
             (request (Some student2) undefined undefined JNull)
             (store, []) (store, []) (BadRequest "Invalid lectureId")).
    + reflexivity.
    + discriminate.
Defined.

Lemma validation_errors_after_checks_witness :
  passed_checks env (request (Some admin2) (num 5) undefined JNull) store /\
  exists parse error,
    schema_of env h_updateLecture = Some parse /\
    parse (req_body env (request (Some admin2) (num 5) undefined JNull))
    = ParseFailure error /\
    extractErrors env (ParseFailure error)
    = Ok (JArray [JString "Expected object"]).
Proof.
  eapply (validation_errors_after_checks env h_updateLecture
            (request (Some admin2) (num 5) undefined JNull) store []
            (JArray [JString "Expected object"]) _).
  vm_compute. reflexivity.
Defined.

Lemma get_getLinks_same_rejections_witness :
  getLinks env (request (Some student2) (num 99) undefined JNull) (store, [])
  = (Ok (NotFound "Lecture doesn't exist."),
     (store, [lectureData_findUnique_call (num 99)])).
Proof.
  apply (proj1 (get_getLinks_same_rejections env
                  (request (Some student2) (num 99) undefined JNull)
                  (store, []) (store, [lectureData_findUnique_call (num 99)])
                  (NotFound "Lecture doesn't exist.") eq_refl)).
  reflexivity.
Defined.

Lemma success_reply_means_authorised_witness :
  passed_checks env (request (Some admin2) (num 5) undefined title) store /\
  existsb is_write
    (issued []
       (snd (snd (createLink env
                    (request (Some admin2) (num 5) undefined title)
                    (store, []))))) = true /\
  201 = match h_createLink with h_createLink => 201 | _ => 200 end.
Proof.
  eapply (success_reply_means_authorised env h_createLink
            (request (Some admin2) (num 5) undefined title) store _ [] _
            _ 201 _).
  - reflexivity.
  - vm_compute. reflexivity.
Defined.

Lemma createLink_stamps_lecture_and_date_witness :
  exists data s',
    createLink env
      (request (Some admin2) (num 5) undefined
         (JObject [("url", JString "https://example.org");
                   ("lectureId", JNumber 6);
                   ("createdAt", JString "1999-01-01")]))
      (store, [])
    = (Ok (Send "Lecture Link has been created" 201
             (row_payload (JObject (assign "id" (JNumber 4) data)))),
       (s', [lectureData_findUnique_call (num 5);
             module_findUnique_call (num 9);
             lectureLinks_create_call data])) /\
    assoc "lectureId" data = Some (JNumber 5) /\
    assoc "createdAt" data = Some (JString "2024-01-01T00:00:00.000Z") /\
    assoc "url" data = Some (JString "https://example.org") /\
    links s' = [(5, link3); (5, {| link_id := num 4 |})].
Proof.
  pose proof (createLink_stamps_lecture_and_date env
    (request (Some admin2) (num 5) undefined
       (JObject [("url", JString "https://example.org");
                 ("lectureId", JNumber 6);
                 ("createdAt", JString "1999-01-01")]))
    store
    (snd (create_link
            [("url", JString "https://example.org");
             ("lectureId", JNumber 5);
             ("createdAt", JString "2024-01-01T00:00:00.000Z")] store))
    [] admin2 (num 5) lecture5 (Some {| module_yearId := num 2 |})
    [("url", JString "https://example.org"); ("lectureId", JNumber 6);
     ("createdAt", JString "1999-01-01")]
    (JString "2024-01-01T00:00:00.000Z")
    (JObject [("url", JString "https://example.org");
              ("lectureId", JNumber 5);
              ("createdAt", JString "2024-01-01T00:00:00.000Z");
              ("id", JNumber 4)])) as Hstamp.
  cbv zeta in Hstamp.
  destruct Hstamp as (Hrun & Hlecture & Hdate & Hrest).
  - repeat split; try reflexivity; discriminate.
  - reflexivity.
  - reflexivity.
  - reflexivity.
  - reflexivity.
  - reflexivity.
  - exists [("url", JString "https://example.org"); ("lectureId", JNumber 5);
            ("createdAt", JString "2024-01-01T00:00:00.000Z")],
           (snd (create_link
                   [("url", JString "https://example.org");
                    ("lectureId", JNumber 5);
                    ("createdAt", JString "2024-01-01T00:00:00.000Z")] store)).
    split; [ exact Hrun | ].
    split; [ exact Hlecture | ]. split; [ exact Hdate | ].
    split; [ | reflexivity ].
    refine (Hrest "url" _ _); discriminate.
Defined.

Lemma deleteLink_checks_lecture_deletes_link_witness :
  find_link (num 8) Samples.two_links = Some Samples.link8 /\
  links Samples.two_links = [(5, link3); (6, Samples.link8)] /\
  exists s',
    deleteLink env (request (Some admin2) (num 5) (num 8) JNull)
      (Samples.two_links, [])
    = (Ok (Send "Link has been deleted" 200
             (row_payload (JObject [("id", JNumber 8)]))),
       (s', [lectureData_findUnique_call (num 5);
             lectureLinks_findUnique_call (num 8);
             module_findUnique_call (num 9);
             lectureLinks_delete_call (num 8)])) /\
    links s' = [(5, link3)].
Proof.
  split; [ reflexivity | ]. split; [ reflexivity | ].
  eexists. split.
  - apply (deleteLink_checks_lecture_deletes_link env
             (request (Some admin2) (num 5) (num 8) JNull)
             Samples.two_links _ [] admin2 (num 5) (num 8) lecture5
             Samples.link8 (Some {| module_yearId := num 2 |}));
      reflexivity.
  - reflexivity.
Defined.

Lemma deleteLecture_succeeds_witness :
  exists s',
    deleteLecture env (request (Some admin2) (num 5) undefined JNull)
      (store, [])
    = (Ok (Send "Lecture has been deleted" 200
             (row_payload (JObject [("id", JNumber 5)]))),
       (s', [lectureData_findUnique_call (num 5);
             module_findUnique_call (num 9);
             lectureData_delete_call (num 5)])) /\
    lectures s' !! 5 = None.
Proof.
  eexists. split.
  - apply (deleteLecture_succeeds env
             (request (Some admin2) (num 5) undefined JNull) store _ []
             admin2 (num 5) lecture5 (Some {| module_yearId := num 2 |})).
    + repeat split; try reflexivity; discriminate.
    + reflexivity.
    + reflexivity.
    + reflexivity.
  - reflexivity.
Defined.

Lemma link_handlers_read_both_parameters_witness :
  handler env h_updateLink (request (Some admin2) undefined undefined title)
    (store, [])
  = (Ok (BadRequest "Invalid lectureId"), (store, [])).
Proof.
  apply (link_handlers_read_both_parameters env h_updateLink
           (request (Some admin2) undefined undefined title) store []
           (Some admin2) undefined); reflexivity.
Defined.

Lemma link_handlers_look_up_both_witness :
  handler env h_deleteLink (request (Some admin2) (num 99) (num 3) JNull)
    (store, [])
  = (Ok (NotFound "Lecture doesn't exist."),
     (store, [lectureData_findUnique_call (num 99);
              lectureLinks_findUnique_call (num 3)])).
Proof.
  apply (link_handlers_look_up_both env h_deleteLink
           (request (Some admin2) (num 99) (num 3) JNull) store []
           (Some admin2) (num 99) (num 3)); reflexivity.
Defined.

Lemma Faculty_lists_swallow_failures_witness :
  Faculty.findAll (Samples.faculty_table (Some [JString "Medicine"]))
    undefined undefined undefined tt = Ok [JString "Medicine"] /\
  Faculty.paginate (Samples.faculty_table (Some [JString "Medicine"]))
    (str "med") undefined null undefined undefined tt
  = Ok [JString "Medicine"] /\
  Faculty.findAll (Samples.faculty_table None)
    undefined undefined undefined tt = Ok [] /\
  Faculty.paginate (Samples.faculty_table None)
    (str "med") undefined null undefined undefined tt = Ok [].
Proof.
  destruct (Faculty_lists_swallow_failures
              (Samples.faculty_table (Some [JString "Medicine"])) tt
              (str "med") undefined null undefined undefined (num 1) None)
    as (_ & _ & Hpage & _ & _).
  destruct (Faculty_lists_swallow_failures
              (Samples.faculty_table (Some [JString "Medicine"])) tt
              undefined undefined undefined undefined undefined (num 1) None)
    as (Hall & _ & _ & _ & _).
  destruct (Faculty_lists_swallow_failures (Samples.faculty_table None) tt
              undefined undefined undefined undefined undefined (num 1) None)
    as (_ & Hdown & _ & _ & _).
  destruct (Faculty_lists_swallow_failures (Samples.faculty_table None) tt
              (str "med") undefined null undefined undefined (num 1) None)
    as (_ & _ & _ & Hdown' & _).
  split; [ | split; [ | split ] ].
  - apply Hall. reflexivity.
  - apply Hpage. reflexivity.
  - apply (Hdown unavailable). reflexivity.
  - apply (Hdown' unavailable). reflexivity.
Defined.

End MoreSamples.
